(** * Grain storage bin digital twin: the layered inventory and its unload

    A shallow embedding of [DT_V1_2.py].  The script keeps, for every
    (user, bin) pair, a list of grain layers in a remote JSON store, reads it
    into a pandas [DataFrame], and writes the whole list back after every
    change.

    Conventions of the embedding:
    - Python floats are modelled by the real numbers [R]: arithmetic is
      exact, so a property the script has "up to rounding" is stated as an
      equality of reals.
    - A call of the script either returns or raises; [outcome] records which.
    - The remote store and the messages shown on the page are threaded
      through every call as a [world]. *)

From Stdlib Require Import Reals Lra ZArith Ascii.
From stdpp Require Import gmap strings list.

Local Open Scope R_scope.

(** ** Data model *)

(** One record of the store, with the six keys the script writes
    (lines 123-130). *)
Record Row : Type := mkRow {
  Date : string;
  Commodity : string;
  Mass_tonnes : R;
  Test_Weight_kg_m3 : R;
  Moisture_Content_percent : R;
  Height_m : R
}.

(** The numeric columns the script reads by label. *)
Inductive column : Type :=
| col_Mass_tonnes
| col_Test_Weight_kg_m3
| col_Moisture_Content_percent
| col_Height_m.

Definition label (c : column) : string :=
  match c with
  | col_Mass_tonnes => "Mass_tonnes"
  | col_Test_Weight_kg_m3 => "Test_Weight_kg_m3"
  | col_Moisture_Content_percent => "Moisture_Content_percent"
  | col_Height_m => "Height_m"
  end.

Definition cell (c : column) (row : Row) : R :=
  match c with
  | col_Mass_tonnes => Mass_tonnes row
  | col_Test_Weight_kg_m3 => Test_Weight_kg_m3 row
  | col_Moisture_Content_percent => Moisture_Content_percent row
  | col_Height_m => Height_m row
  end.

(** A pandas frame: its column labels and its rows, bottom layer first. *)
Record DataFrame : Type := mkDataFrame {
  columns : list string;
  rows : list Row
}.

Definition record_keys : list string :=
  ["Date"; "Commodity"; "Mass_tonnes"; "Test_Weight_kg_m3";
   "Moisture_Content_percent"; "Height_m"].

(** [pd.DataFrame()]: no column, no row. *)
Definition DataFrame_empty : DataFrame := mkDataFrame [] [].

(** [pd.DataFrame(data)] for a list of records (or of row series): the
    columns are the keys of the records, so a list without records gives a
    frame without columns. *)
Definition DataFrame_of (data : list Row) : DataFrame :=
  match data with
  | [] => DataFrame_empty
  | _ :: _ => mkDataFrame record_keys data
  end.

(** [df.to_dict(orient='records')]. *)
Definition to_dict_records (df : DataFrame) : list Row := rows df.

(** [df.empty]. *)
Definition empty (df : DataFrame) : bool :=
  match rows df, columns df with
  | [], _ | _, [] => true
  | _, _ => false
  end.

(** [pd.concat([a, b], ignore_index=True)]. *)
Definition concat (a b : DataFrame) : DataFrame :=
  mkDataFrame (list_union (columns a) (columns b)) (rows a ++ rows b).

(** ** Calls that return or raise *)

Inductive exn : Type :=
| KeyError (key : string)
| NameError (name : string).

Inductive outcome (A : Type) : Type :=
| Returned (a : A)
| Raised (e : exn).
Arguments Returned {A} a.
Arguments Raised {A} e.

(** [df[c]]: the column as a series, [KeyError] when the frame has no
    column of that label. *)
Definition getitem (df : DataFrame) (c : column) : outcome (list R) :=
  if decide (label c ∈ columns df)
  then Returned (cell c <$> rows df)
  else Raised (KeyError (label c)).

(** [series.sum()]. *)
Definition sum (s : list R) : R := foldr Rplus 0 s.

(** [series.cumsum()]. *)
Fixpoint cumsum_from (acc : R) (s : list R) : list R :=
  match s with
  | [] => []
  | x :: s' => (acc + x) :: cumsum_from (acc + x) s'
  end.

Definition cumsum (s : list R) : list R := cumsum_from 0 s.

(** ** The world: remote store and page *)

(** What the page shows: [st.error], [st.warning] and [st.success].  The
    warning of [unload_grain] is formatted from one number, which the
    constructor keeps. *)
Inductive message : Type :=
| error (text : string)
| warning_short_by (shortfall : R)
| success (text : string).

(** The remote database: a JSON document (a list of records) per path.
    When [fault] is [Some text] its answers are not [ok] and carry
    [text]. *)
Record remote : Type := mkRemote {
  fault : option string;
  store : gmap string (list Row)
}.

Record world : Type := mkWorld {
  firebase : remote;
  page : list message
}.

Record Response : Type := mkResponse {
  ok : bool;
  text : string;
  json : option (list Row)
}.

Definition requests_get (db : remote) (path : string) : Response :=
  match fault db with
  | None => mkResponse true "" (store db !! path)
  | Some t => mkResponse false t None
  end.

Definition requests_put (db : remote) (path : string) (data : list Row)
  : remote * Response :=
  match fault db with
  | None => (mkRemote None (<[path := data]> (store db)), mkResponse true "" None)
  | Some t => (db, mkResponse false t None)
  end.

(** The monad of the script: a call reads and changes the world and
    returns or raises. *)
Definition py (A : Type) : Type := world → outcome A * world.

Definition ret {A} (a : A) : py A := fun w => (Returned a, w).

Definition bind {A B} (k : A → py B) (m : py A) : py B :=
  fun w =>
    match m w with
    | (Returned a, w') => k a w'
    | (Raised e, w') => (Raised e, w')
    end.

#[export] Instance py_ret : MRet py := @ret.
#[export] Instance py_bind : MBind py := @bind.

Definition lift {A} (o : outcome A) : py A := fun w => (o, w).

Definition show (m : message) : py () :=
  fun w => (Returned (), mkWorld (firebase w) (page w ++ [m])).

Definition get (path : string) : py Response :=
  fun w => (Returned (requests_get (firebase w) path), w).

Definition put (path : string) (data : list Row) : py Response :=
  fun w =>
    let '(db, r) := requests_put (firebase w) path data in
    (Returned r, mkWorld db (page w)).

(** ** The script's functions *)

Definition inventory_path (user_id bin_id : string) : string :=
  "users/" +:+ user_id +:+ "/" +:+ bin_id +:+ "/inventory.json".

(** Lines 12-24. *)
Definition fetch_inventory_data (user_id bin_id : string) : py DataFrame :=
  let path := inventory_path user_id bin_id in
  response ← get path;
  if ok response then
    match json response with
    | Some (r :: data) => mret (DataFrame_of (r :: data))
    | Some [] | None => mret DataFrame_empty
    end
  else
    show (error ("Failed to fetch data: " +:+ text response));;
    mret DataFrame_empty.

(** Lines 26-31. *)
Definition update_inventory_data (user_id bin_id : string)
    (inventory_data : list Row) : py () :=
  let path := inventory_path user_id bin_id in
  response ← put path inventory_data;
  if ok response then mret ()
  else show (error ("Failed to update data: " +:+ text response)).

(** Lines 33-34.  The body is one arithmetic expression: the call returns
    for every pair of numbers. *)
Definition calculate_bin_capacity (diameter height : R) : outcome R :=
  Returned (PI * (diameter / 2) ^ 2 * height).

(** Lines 76-78: the copy of a row that is only partly unloaded. *)
Definition new_row (row : Row) (remaining_mass bin_diameter : R) : Row :=
  let mass := Mass_tonnes row - remaining_mass in
  mkRow (Date row) (Commodity row) mass (Test_Weight_kg_m3 row)
        (Moisture_Content_percent row)
        (mass * 1000 / (Test_Weight_kg_m3 row * PI * (bin_diameter / 2) ^ 2)).

(** Lines 65-81: the loop over the rows, with its two variables
    [remaining_mass] and [preserved_rows]; the last branch is the [break]. *)
Fixpoint unload_loop (bin_diameter : R) (iterrows : list Row)
    (remaining_mass : R) (preserved_rows : list Row) : list Row :=
  match iterrows with
  | [] => preserved_rows
  | row :: rest =>
      if Rle_dec remaining_mass 0 then
        unload_loop bin_diameter rest remaining_mass (preserved_rows ++ [row])
      else if Rge_dec remaining_mass (Mass_tonnes row) then
        unload_loop bin_diameter rest (remaining_mass - Mass_tonnes row)
                    preserved_rows
      else
        preserved_rows ++ [new_row row remaining_mass bin_diameter]
  end.

(** Lines 58-85. *)
Definition unload_grain (user_id bin_id : string)
    (mass_to_unload bin_diameter : R) : py () :=
  inventory_df ← fetch_inventory_data user_id bin_id;
  masses ← lift (getitem inventory_df col_Mass_tonnes);
  let total_mass := sum masses in
  if Rgt_dec mass_to_unload total_mass then
    show (warning_short_by (mass_to_unload - total_mass))
  else
    let preserved_rows :=
      unload_loop bin_diameter (rows inventory_df) mass_to_unload [] in
    let new_inventory := DataFrame_of preserved_rows in
    update_inventory_data user_id bin_id (to_dict_records new_inventory).

(** *** The moisture heat map (lines 36-56) *)

(** [int(x)]: truncation towards zero. *)
Definition int (x : R) : Z :=
  if Rlt_dec x 0 then (- Int_part (- x))%Z else Int_part x.

(** [np.zeros((n, m))]. *)
Definition zeros (n m : nat) : list (list R) := replicate n (replicate m 0).

(** A bound of a slice on an axis of length [n], as Python normalises it:
    a negative bound counts from the end, and both are clamped to the
    axis. *)
Definition slice_bound (n k : Z) : Z :=
  if (k <? 0)%Z then Z.max 0 (k + n) else Z.min k n.

(** [a[start:stop, :] = v]. *)
Definition setitem_rows (a : list (list R)) (start stop : Z) (v : R)
  : list (list R) :=
  let n := Z.of_nat (length a) in
  let lo := slice_bound n start in
  let hi := slice_bound n stop in
  imap (fun j band =>
          if decide (lo ≤ Z.of_nat j < hi)%Z then (fun _ => v) <$> band
          else band) a.

(** Of the figure only the colour of the surface depends on the
    inventory; the mesh, the colour scale and the layout are constants of
    the presentation. *)
Record Figure : Type := mkFigure {
  surfacecolor : list (list R)
}.

(** One turn of the loop of lines 47-50.  The series are indexed by
    position, as the frames of this script are. *)
Definition heatmap_step (height : R) (grain_heights moisture_values : list R)
    (moisture_heatmap : list (list R)) (i : nat) : list (list R) :=
  let start_index :=
    match i with
    | O => 0%Z
    | S _ => int ((nth (i - 1) grain_heights 0 / height) * 100)
    end in
  let end_index := int ((nth i grain_heights 0 / height) * 100) in
  setitem_rows moisture_heatmap start_index end_index (nth i moisture_values 0).

Definition create_bin_visualization (diameter height : R)
    (inventory : DataFrame) : outcome (option Figure) :=
  let moisture_heatmap := zeros 100 100 in
  if negb (empty inventory) then
    match getitem inventory col_Height_m with
    | Raised e => Raised e
    | Returned heights =>
        let grain_heights := cumsum heights in
        match getitem inventory col_Moisture_Content_percent with
        | Raised e => Raised e
        | Returned moisture_values =>
            let moisture_heatmap :=
              foldl (heatmap_step height grain_heights moisture_values)
                    moisture_heatmap (seq 0 (length moisture_values)) in
            Returned (Some (mkFigure moisture_heatmap))
        end
    end
  else Returned None.

(** *** The form that adds grain (lines 113-142) *)

(** Lines 117-130: the record of the new layer.  [current_time] is the
    clock reading of line 120. *)
Definition new_grain_data (current_time commodity : string)
    (mass test_weight moisture_content bin_diameter : R) : Row :=
  let height_m := mass * 1000 / (PI * (bin_diameter / 2) ^ 2 * test_weight) in
  mkRow current_time commodity mass test_weight moisture_content height_m.

(** Reading a module-level name: [NameError] when it is not bound. *)
Definition name_lookup {A} (name : string) (binding : option A) : py A :=
  match binding with
  | Some v => mret v
  | None => lift (Raised (NameError name))
  end.

(** The body of the form.  Line 134 reads the module-level name
    [inventory_df], which the script itself binds only later (line 149);
    its binding when the form runs is the argument [inventory_df]. *)
Definition inventory_form (user_id selected_bin : string) (bin_diameter : R)
    (commodity : string) (mass test_weight moisture_content : R)
    (submit_button : bool) (current_time : string)
    (inventory_df : option DataFrame) : py () :=
  if submit_button then
    if Rgt_dec test_weight 0 then
      let new_grain_df :=
        DataFrame_of [new_grain_data current_time commodity mass test_weight
                                     moisture_content bin_diameter] in
      df ← name_lookup "inventory_df" inventory_df;
      let inventory_df := concat df new_grain_df in
      update_inventory_data user_id selected_bin
                            (to_dict_records inventory_df);;
      show (success "Inventory updated successfully.")
    else
      show (error "Test weight must be greater than zero to calculate the height.")
  else mret ().

(** ** Observations used in the statements *)

(** The rows that the loop of [unload_grain] never reaches: those after the
    row at which it leaves by [break]. *)
Fixpoint unvisited (iterrows : list Row) (remaining_mass : R) : list Row :=
  match iterrows with
  | [] => []
  | row :: rest =>
      if Rle_dec remaining_mass 0 then unvisited rest remaining_mass
      else if Rge_dec remaining_mass (Mass_tonnes row) then
        unvisited rest (remaining_mass - Mass_tonnes row)
      else rest
  end.

(** The layers of a bin as the store holds them; a bin without a document
    has none. *)
Definition ledger (w : world) (user_id bin_id : string) : list Row :=
  default [] (store (firebase w) !! inventory_path user_id bin_id).

Definition total_mass (l : list Row) : R := sum (Mass_tonnes <$> l).

(** The rows of [pre] are consumed whole, one after the other, by a loop
    that enters with [remaining_mass]: at each of them the loop is in its
    second branch. *)
Fixpoint consumed_whole (remaining_mass : R) (pre : list Row) : Prop :=
  match pre with
  | [] => True
  | row :: pre' =>
      0 < remaining_mass ∧ Mass_tonnes row <= remaining_mass ∧
      consumed_whole (remaining_mass - Mass_tonnes row) pre'
  end.

(** The world after the document of a bin has been replaced by [data]. *)
Definition saved (w : world) (user_id bin_id : string) (data : list Row)
  : world :=
  mkWorld (mkRemote None (<[inventory_path user_id bin_id := data]>
                            (store (firebase w))))
          (page w).

(** ** Sample bins *)

Definition wheat : Row := new_grain_data "2024-03-01 08:00" "Wheat" 100 750 14 10.
Definition corn : Row := new_grain_data "2024-03-02 09:30" "Corn" 50 720 18 10.
Definition oats : Row := new_grain_data "2024-03-03 10:15" "Oats" 25 600 12 10.
Definition chaff : Row := new_grain_data "2024-03-04 11:45" "Rye" 0 700 13 10.

Definition bin_of (data : list Row) : world :=
  mkWorld (mkRemote None {[ inventory_path "User1" "Bin1" := data ]}) [].

(** A bin the store has no document for. *)
Definition bin_none : world := mkWorld (mkRemote None ∅) [].

(** ** The page (lines 87-165) *)

(** The values of the input widgets in one run of the script. *)
Module Widgets.
Record t : Type := mk {
  user_id : string;
  selected_bin : string;
  unload_mass : R;
  unload_button : bool;
  bin_diameter : R;
  bin_height : R;
  commodity : string;
  mass : R;
  test_weight : R;
  moisture_content : R;
  submit_button : bool
}.
End Widgets.

(** What a run puts on the page besides its messages: the table of
    [st.write] and the chart of [st.plotly_chart].  Titles and captions are
    constants. *)
Record Display : Type := mkDisplay {
  table : option DataFrame;
  chart : option Figure
}.

(** One run of the script, top to bottom.  The run starts with no
    module-level name [inventory_df]: the form (line 134) comes before the
    first assignment to it (line 149). *)
Definition script (ui : Widgets.t) (current_time : string) : py Display :=
  inventory_form (Widgets.user_id ui) (Widgets.selected_bin ui)
                 (Widgets.bin_diameter ui) (Widgets.commodity ui)
                 (Widgets.mass ui) (Widgets.test_weight ui)
                 (Widgets.moisture_content ui) (Widgets.submit_button ui)
                 current_time None;;
  (if Widgets.unload_button ui then
     unload_grain (Widgets.user_id ui) (Widgets.selected_bin ui)
                  (Widgets.unload_mass ui) (Widgets.bin_diameter ui)
   else mret ());;
  inventory_df ← fetch_inventory_data (Widgets.user_id ui)
                                      (Widgets.selected_bin ui);
  if empty inventory_df then
    show (error "No inventory data available for the selected bin.");;
    mret (mkDisplay None None)
  else
    bin_fig ← lift (create_bin_visualization (Widgets.bin_diameter ui)
                                             (Widgets.bin_height ui)
                                             inventory_df);
    mret (mkDisplay (Some inventory_df) bin_fig).

(** Sample widget values: user "User1", bin "Bin1", a bin of diameter 10
    and height 20, and a form filled with 100 tonnes of wheat. *)
Definition sample_widgets (unload_mass : R) (unload_button : bool)
    (test_weight : R) (submit_button : bool) : Widgets.t :=
  Widgets.mk "User1" "Bin1" unload_mass unload_button 10 20
             "Wheat" 100 test_weight 14 submit_button.

(** The same widget values with the unload button not pressed. *)
Definition released (ui : Widgets.t) : Widgets.t :=
  Widgets.mk (Widgets.user_id ui) (Widgets.selected_bin ui)
             (Widgets.unload_mass ui) false (Widgets.bin_diameter ui)
             (Widgets.bin_height ui) (Widgets.commodity ui) (Widgets.mass ui)
             (Widgets.test_weight ui) (Widgets.moisture_content ui)
             (Widgets.submit_button ui).

(** ** Invariants of the layers *)

(** What the form guarantees of a layer it accepts: a mass that is not
    negative (the widget's minimum) and a positive test weight (the guard
    of line 115). *)
Definition layer_ok (r : Row) : Prop :=
  0 <= Mass_tonnes r ∧ 0 < Test_Weight_kg_m3 r.

(** The height of a layer is the one its mass and test weight give in a
    bin of diameter [d]. *)
Definition height_fits (d : R) (r : Row) : Prop :=
  Height_m r
  = Mass_tonnes r * 1000 / (Test_Weight_kg_m3 r * PI * (d / 2) ^ 2).

(** An identifier without the separator of the paths. *)
Fixpoint no_slash (s : string) : Prop :=
  match s with
  | EmptyString => True
  | String c s' => c ≠ "/"%char ∧ no_slash s'
  end.

(** ** The calls in a world whose store answers *)

Lemma to_dict_records_DataFrame_of (data : list Row) :
  to_dict_records (DataFrame_of data) = data.
Proof. by destruct data. Qed.

Lemma rows_DataFrame_of (data : list Row) : rows (DataFrame_of data) = data.
Proof. by destruct data. Qed.

Lemma getitem_DataFrame_of_cons (r : Row) (data : list Row) (c : column) :
  getitem (DataFrame_of (r :: data)) c = Returned (cell c <$> r :: data).
Proof.
  unfold getitem. rewrite decide_True; [done|].
  destruct c; cbn; set_solver.
Qed.

Lemma getitem_DataFrame_of_nil (c : column) :
  getitem (DataFrame_of []) c = Raised (KeyError (label c)).
Proof. unfold getitem. rewrite decide_False; [done|]. cbn. set_solver. Qed.

Lemma ledger_saved (w : world) (user_id bin_id : string) (data : list Row) :
  ledger (saved w user_id bin_id data) user_id bin_id = data.
Proof. unfold ledger, saved. cbn. by rewrite lookup_insert_eq. Qed.

Section Serving.
Context (user_id bin_id : string) (w : world).
Hypothesis serving : fault (firebase w) = None.

Lemma fetch_inventory_data_serving :
  fetch_inventory_data user_id bin_id w
  = (Returned (DataFrame_of (ledger w user_id bin_id)), w).
Proof.
  unfold fetch_inventory_data, ledger, mbind, py_bind, bind, get, requests_get.
  rewrite serving. cbn.
  destruct (store (firebase w) !! inventory_path user_id bin_id)
    as [[|r data]|]; reflexivity.
Qed.

Lemma update_inventory_data_serving (data : list Row) :
  update_inventory_data user_id bin_id data w
  = (Returned (), saved w user_id bin_id data).
Proof.
  unfold update_inventory_data, mbind, py_bind, bind, put, requests_put.
  rewrite serving. reflexivity.
Qed.

(** [unload_grain] on a bin without layers: line 60 raises. *)
Lemma unload_grain_no_layer (mass_to_unload bin_diameter : R) :
  ledger w user_id bin_id = [] →
  unload_grain user_id bin_id mass_to_unload bin_diameter w
  = (Raised (KeyError "Mass_tonnes"), w).
Proof.
  intros Hl. unfold unload_grain, mbind, py_bind, bind.
  rewrite fetch_inventory_data_serving, Hl. unfold lift.
  by rewrite getitem_DataFrame_of_nil.
Qed.

(** [unload_grain] on a bin with layers: the guard of line 61, then the
    loop and the write. *)
Lemma unload_grain_layers (mass_to_unload bin_diameter : R) :
  ledger w user_id bin_id ≠ [] →
  unload_grain user_id bin_id mass_to_unload bin_diameter w
  = if Rgt_dec mass_to_unload (total_mass (ledger w user_id bin_id))
    then (Returned (),
          mkWorld (firebase w)
                  (page w ++ [warning_short_by
                                (mass_to_unload
                                 - total_mass (ledger w user_id bin_id))]))
    else (Returned (),
          saved w user_id bin_id
                (unload_loop bin_diameter (ledger w user_id bin_id)
                             mass_to_unload [])).
Proof.
  intros Hl. unfold unload_grain, mbind, py_bind, bind.
  rewrite fetch_inventory_data_serving.
  destruct (ledger w user_id bin_id) as [|r data] eqn:E; [done|].
  unfold lift. rewrite getitem_DataFrame_of_cons.
  change (sum (cell col_Mass_tonnes <$> r :: data))
    with (total_mass (r :: data)).
  destruct (Rgt_dec mass_to_unload (total_mass (r :: data))); [done|].
  rewrite to_dict_records_DataFrame_of, rows_DataFrame_of.
  (* the world reached by the fetch is [w] itself *)
  apply update_inventory_data_serving.
Qed.
End Serving.

(** ** The loop *)

Lemma unload_loop_app (d : R) (l : list Row) :
  ∀ (rem : R) (acc : list Row),
    unload_loop d l rem acc = acc ++ unload_loop d l rem [].
Proof.
  induction l as [|row rest IH]; intros rem acc; cbn [unload_loop].
  - by rewrite app_nil_r.
  - destruct (Rle_dec rem 0).
    + rewrite (IH rem (acc ++ [row])), (IH rem ([] ++ [row])).
      by rewrite <- app_assoc.
    + destruct (Rge_dec rem (Mass_tonnes row)); [apply IH | done].
Qed.

(** Once nothing remains to remove, the loop copies the rows it meets. *)
Lemma unload_loop_paid (d : R) (l : list Row) (rem : R) (acc : list Row) :
  rem <= 0 → unload_loop d l rem acc = acc ++ l.
Proof.
  intros Hrem. revert acc.
  induction l as [|row rest IH]; intros acc; cbn [unload_loop].
  - by rewrite app_nil_r.
  - destruct (Rle_dec rem 0); [|lra].
    rewrite IH. by rewrite <- app_assoc.
Qed.

(** A prefix consumed whole leaves no row and passes on what remains. *)
Lemma unload_loop_consumed (d : R) (pre l : list Row) :
  ∀ (rem : R) (acc : list Row),
    consumed_whole rem pre →
    unload_loop d (pre ++ l) rem acc
    = unload_loop d l (rem - total_mass pre) acc.
Proof.
  induction pre as [|row pre IH]; intros rem acc Hpre;
    cbn [app unload_loop].
  - unfold total_mass, sum. cbn. by rewrite Rminus_0_r.
  - destruct Hpre as (Hpos & Hge & Hpre).
    destruct (Rle_dec rem 0); [lra|].
    destruct (Rge_dec rem (Mass_tonnes row)); [|lra].
    rewrite (IH _ _ Hpre). f_equal.
    unfold total_mass, sum. cbn. lra.
Qed.

(** A row met with a remainder strictly inside its mass is cut, and the
    loop ends there: the rows after it are not visited. *)
Lemma unload_loop_break (d : R) (row : Row) (post : list Row)
    (rem : R) (acc : list Row) :
  0 < rem < Mass_tonnes row →
  unload_loop d (row :: post) rem acc = acc ++ [new_row row rem d].
Proof.
  intros [Hlo Hhi]. cbn [unload_loop].
  destruct (Rle_dec rem 0); [lra|].
  destruct (Rge_dec rem (Mass_tonnes row)); [lra|done].
Qed.

Lemma total_mass_nonneg (l : list Row) :
  Forall (fun r => 0 <= Mass_tonnes r) l → 0 <= total_mass l.
Proof.
  unfold total_mass, sum.
  induction 1 as [|r l Hr _ IH]; cbn; lra.
Qed.

Lemma total_mass_cons (row : Row) (l : list Row) :
  total_mass (row :: l) = Mass_tonnes row + total_mass l.
Proof. reflexivity. Qed.


Lemma unvisited_paid (l : list Row) (rem : R) :
  rem <= 0 → unvisited l rem = [].
Proof.
  intros Hrem. induction l as [|row rest IH]; cbn [unvisited]; [done|].
  by destruct (Rle_dec rem 0); [|lra].
Qed.

(** The balance of the loop: what is written back weighs the old total
    minus the request, minus the rows that the [break] left unvisited. *)
Lemma unload_loop_balance (d : R) (l : list Row) :
  ∀ rem : R,
    Forall (fun r => 0 <= Mass_tonnes r) l →
    0 <= rem <= total_mass l →
    total_mass (unload_loop d l rem [])
    = total_mass l - rem - total_mass (unvisited l rem).
Proof.
  induction l as [|row rest IH]; intros rem Hpos Hrem;
    cbn [unload_loop unvisited].
  - unfold total_mass, sum in *. cbn in *. lra.
  - apply Forall_cons in Hpos as [Hrow Hrest].
    rewrite total_mass_cons in *.
    destruct (Rle_dec rem 0).
    + rewrite unload_loop_paid, unvisited_paid by lra.
      cbn [app]. rewrite total_mass_cons.
      change (total_mass []) with 0. lra.
    + destruct (Rge_dec rem (Mass_tonnes row)).
      * rewrite IH by (done || lra). lra.
      * cbn [app]. rewrite total_mass_cons.
        change (total_mass []) with 0. unfold new_row. cbn [Mass_tonnes]. lra.
Qed.

(** ** Facts about the sample bins *)

Lemma ledger_bin_of (data : list Row) :
  ledger (bin_of data) "User1" "Bin1" = data.
Proof. unfold ledger, bin_of. cbn [firebase store]. by rewrite lookup_singleton_eq. Qed.

Lemma ledger_bin_none : ledger bin_none "User1" "Bin1" = [].
Proof. reflexivity. Qed.

Ltac weigh :=
  unfold total_mass, sum, wheat, corn, oats, chaff, new_grain_data in *;
  cbn [fmap list_fmap foldr consumed_whole Mass_tonnes Test_Weight_kg_m3] in *.

(** ** Unloading *)

(** A remainder that ends strictly inside a row: the document written back
    is the cut row alone. *)
Lemma unload_grain_cut (user_id bin_id : string) (w : world) (m d : R)
    (pre : list Row) (row : Row) (post : list Row) :
  fault (firebase w) = None →
  ledger w user_id bin_id = pre ++ row :: post →
  consumed_whole m pre →
  0 < m - total_mass pre < Mass_tonnes row →
  m <= total_mass (ledger w user_id bin_id) →
  unload_grain user_id bin_id m d w
  = (Returned (), saved w user_id bin_id [new_row row (m - total_mass pre) d]).
Proof.
  intros Hs Hl Hpre Hcut Hle.
  rewrite unload_grain_layers; [|done|rewrite Hl; by destruct pre].
  destruct (Rgt_dec m (total_mass (ledger w user_id bin_id))); [lra|].
  by rewrite Hl, unload_loop_consumed, unload_loop_break.
Qed.

Lemma unload_three_cut :
  unload_grain "User1" "Bin1" 120 10 (bin_of [wheat; corn; oats])
  = (Returned (), saved (bin_of [wheat; corn; oats]) "User1" "Bin1"
                        [new_row corn 20 10]).
Proof.
  rewrite (unload_grain_cut _ _ _ _ _ [wheat] corn [oats]);
    rewrite ?ledger_bin_of; try done; try (weigh; lra).
  do 4 f_equal. weigh. lra.
Qed.

(** C1.  The claim: when a layer is only partly consumed, every layer after
    it is still in the resulting ledger, unchanged and in order.  The
    script does otherwise: three layers of 100, 50 and 25 tonnes, 120 tonnes
    to unload.  The first layer is consumed whole, the remainder of 20 tonnes
    falls strictly inside the second, and the [break] of line 81 leaves the
    loop before the third layer is copied: the ledger written back holds the
    cut second layer only. *)
Theorem unload_grain_loses_layers_above_cut :
  let before := bin_of [wheat; corn; oats] in
  let after := (unload_grain "User1" "Bin1" 120 10 before).2 in
  0 < 120 <= total_mass (ledger before "User1" "Bin1") ∧
  consumed_whole 120 [wheat] ∧
  0 < 120 - total_mass [wheat] < Mass_tonnes corn ∧
  ledger after "User1" "Bin1" = [new_row corn 20 10] ∧
  oats ∉ ledger after "User1" "Bin1".
Proof.
  cbv zeta. rewrite unload_three_cut, ledger_bin_of. cbn [snd].
  rewrite ledger_saved.
  repeat split; try (weigh; lra).
  intros Hin. apply list_elem_of_singleton in Hin.
  apply (f_equal Commodity) in Hin. discriminate Hin.
Qed.

(** C2.  The claim: after unloading [m] with [0 <= m <= total], the total
    mass of the ledger is the old total minus [m].  On the same three
    layers (175 tonnes) and 120 tonnes to unload, the ledger written back
    weighs 30 tonnes and not 55: the 25 tonnes of the third layer are gone
    with it. *)
Theorem unload_grain_loses_mass :
  let before := bin_of [wheat; corn; oats] in
  let after := (unload_grain "User1" "Bin1" 120 10 before).2 in
  0 <= 120 <= total_mass (ledger before "User1" "Bin1") ∧
  total_mass (ledger before "User1" "Bin1") - 120 = 55 ∧
  total_mass (ledger after "User1" "Bin1") = 30.
Proof.
  cbv zeta. rewrite unload_three_cut, ledger_bin_of. cbn [snd].
  rewrite ledger_saved.
  unfold new_row. repeat split; weigh; lra.
Qed.

(** The request that exceeds the total of a bin with layers: a warning that
    carries the shortfall, and the store as it was. *)
Lemma unload_grain_short (user_id bin_id : string) (w : world) (m d : R) :
  fault (firebase w) = None →
  ledger w user_id bin_id ≠ [] →
  m > total_mass (ledger w user_id bin_id) →
  unload_grain user_id bin_id m d w
  = (Returned (),
     mkWorld (firebase w)
             (page w ++ [warning_short_by
                           (m - total_mass (ledger w user_id bin_id))])).
Proof.
  intros Hs Hl Hm. rewrite unload_grain_layers by done.
  by destruct (Rgt_dec m (total_mass (ledger w user_id bin_id))).
Qed.

(** C3.  The claim: a request above the total fails with the shortfall, also
    on the empty ledger.  For a bin without layers [fetch_inventory_data]
    returns [pd.DataFrame()], which has no column: line 60 raises
    [KeyError] before the comparison of line 61, and no warning with a
    shortfall is shown.  The store is left as it was. *)
Theorem unload_grain_short_on_no_layer_raises :
  5 > total_mass (ledger bin_none "User1" "Bin1") ∧
  unload_grain "User1" "Bin1" 5 10 bin_none
  = (Raised (KeyError "Mass_tonnes"), bin_none).
Proof.
  split.
  - rewrite ledger_bin_none. weigh. lra.
  - by apply unload_grain_no_layer.
Qed.

(** Unloading nothing from a bin with layers writes the same layers
    back. *)
Lemma unload_grain_nothing (user_id bin_id : string) (w : world) (d : R) :
  fault (firebase w) = None →
  ledger w user_id bin_id ≠ [] →
  Forall (fun r => 0 <= Mass_tonnes r) (ledger w user_id bin_id) →
  unload_grain user_id bin_id 0 d w
  = (Returned (), saved w user_id bin_id (ledger w user_id bin_id)).
Proof.
  intros Hs Hl Hpos. rewrite unload_grain_layers by done.
  apply total_mass_nonneg in Hpos.
  destruct (Rgt_dec 0 (total_mass (ledger w user_id bin_id))); [lra|].
  rewrite unload_loop_paid by lra. done.
Qed.

(** C10.  The claim: unloading 0 succeeds on every ledger, the empty one
    included, and returns it unchanged.  On a bin without layers the call
    does not return: line 60 raises [KeyError], as for C3. *)
Theorem unload_grain_nothing_on_no_layer_raises :
  unload_grain "User1" "Bin1" 0 10 bin_none
  = (Raised (KeyError "Mass_tonnes"), bin_none).
Proof. by apply unload_grain_no_layer. Qed.

(** C9.  When the unload cuts a layer (the layers before it are consumed
    whole and what remains is strictly between 0 and its mass), the layer
    written back for it has the Date, Commodity, Test_Weight_kg_m3 and
    Moisture_Content_percent of the original; only Mass_tonnes, lowered by
    the remainder, and Height_m, recomputed from the new mass, differ. *)
Theorem unload_grain_cut_keeps_other_fields
    (user_id bin_id : string) (w : world) (m d : R)
    (pre : list Row) (row : Row) (post : list Row) :
  fault (firebase w) = None →
  ledger w user_id bin_id = pre ++ row :: post →
  consumed_whole m pre →
  0 < m - total_mass pre < Mass_tonnes row →
  m <= total_mass (ledger w user_id bin_id) →
  ∃ cut : Row,
    unload_grain user_id bin_id m d w
    = (Returned (), saved w user_id bin_id [cut]) ∧
    Date cut = Date row ∧
    Commodity cut = Commodity row ∧
    Test_Weight_kg_m3 cut = Test_Weight_kg_m3 row ∧
    Moisture_Content_percent cut = Moisture_Content_percent row ∧
    Mass_tonnes cut = Mass_tonnes row - (m - total_mass pre) ∧
    Height_m cut
    = Mass_tonnes cut * 1000
      / (Test_Weight_kg_m3 cut * PI * (d / 2) ^ 2).
Proof.
  intros Hs Hl Hpre Hcut Hle.
  exists (new_row row (m - total_mass pre) d).
  split; [by eapply unload_grain_cut|].
  by repeat split.
Qed.

Lemma unload_grain_cut_keeps_other_fields_witness :
  ∃ cut : Row,
    unload_grain "User1" "Bin1" 120 10 (bin_of [wheat; corn; oats])
    = (Returned (), saved (bin_of [wheat; corn; oats]) "User1" "Bin1" [cut]) ∧
    Date cut = Date corn ∧
    Commodity cut = Commodity corn ∧
    Test_Weight_kg_m3 cut = Test_Weight_kg_m3 corn ∧
    Moisture_Content_percent cut = Moisture_Content_percent corn ∧
    Mass_tonnes cut = Mass_tonnes corn - (120 - total_mass [wheat]) ∧
    Height_m cut
    = Mass_tonnes cut * 1000
      / (Test_Weight_kg_m3 cut * PI * (10 / 2) ^ 2).
Proof.
  apply (unload_grain_cut_keeps_other_fields
           "User1" "Bin1" (bin_of [wheat; corn; oats]) 120 10
           [wheat] corn [oats]).
  - reflexivity.
  - apply ledger_bin_of.
  - weigh. lra.
  - weigh. lra.
  - rewrite ledger_bin_of. weigh. lra.
Defined.

(** C4, as stated, fails on a bottom layer of 0 tonnes (the form accepts
    such a mass): the request equals the bottom layer's mass, the loop
    enters with nothing to remove, and its first branch keeps every row,
    the bottom one included. *)
Lemma unload_bottom_mass_zero_keeps_bottom :
  let before := bin_of [chaff; corn] in
  let after := (unload_grain "User1" "Bin1" (Mass_tonnes chaff) 10 before).2 in
  ledger before "User1" "Bin1" = chaff :: [corn] ∧
  ledger after "User1" "Bin1" = [chaff; corn] ∧
  ledger after "User1" "Bin1" ≠ [corn].
Proof.
  cbv zeta.
  assert (unload_grain "User1" "Bin1" (Mass_tonnes chaff) 10
                       (bin_of [chaff; corn])
          = (Returned (), saved (bin_of [chaff; corn]) "User1" "Bin1"
                                [chaff; corn])) as ->.
  { change (Mass_tonnes chaff) with 0.
    rewrite unload_grain_nothing; rewrite ?ledger_bin_of; try done.
    repeat constructor; weigh; lra. }
  cbn [snd]. rewrite ledger_saved, ledger_bin_of.
  repeat split. discriminate.
Qed.

(** C4, amended.  In a bin whose layers have masses that are not negative
    and whose bottom layer has a positive mass, unloading exactly the
    bottom layer's mass writes back the layers above it, unchanged and in
    order. *)
Theorem unload_bottom_mass_removes_bottom
    (user_id bin_id : string) (w : world) (d : R)
    (bottom : Row) (above : list Row) :
  fault (firebase w) = None →
  ledger w user_id bin_id = bottom :: above →
  0 < Mass_tonnes bottom →
  Forall (fun r => 0 <= Mass_tonnes r) above →
  let after := (unload_grain user_id bin_id (Mass_tonnes bottom) d w).2 in
  unload_grain user_id bin_id (Mass_tonnes bottom) d w = (Returned (), after) ∧
  ledger after user_id bin_id = above.
Proof.
  intros Hs Hl Hpos Habove. cbv zeta.
  rewrite unload_grain_layers; [|done|by rewrite Hl].
  rewrite Hl. apply total_mass_nonneg in Habove.
  destruct (Rgt_dec (Mass_tonnes bottom) (total_mass (bottom :: above)))
    as [Hgt|_].
  { unfold total_mass, sum in *. cbn in Hgt. lra. }
  cbn [snd unload_loop].
  destruct (Rle_dec (Mass_tonnes bottom) 0); [lra|].
  destruct (Rge_dec (Mass_tonnes bottom) (Mass_tonnes bottom)); [|lra].
  rewrite unload_loop_paid by lra.
  by rewrite ledger_saved.
Qed.

Lemma unload_bottom_mass_removes_bottom_witness :
  let w := bin_of [wheat; corn; oats] in
  let after := (unload_grain "User1" "Bin1" (Mass_tonnes wheat) 10 w).2 in
  unload_grain "User1" "Bin1" (Mass_tonnes wheat) 10 w = (Returned (), after) ∧
  ledger after "User1" "Bin1" = [corn; oats].
Proof.
  apply (unload_bottom_mass_removes_bottom
           "User1" "Bin1" (bin_of [wheat; corn; oats]) 10 wheat [corn; oats]).
  - reflexivity.
  - apply ledger_bin_of.
  - weigh. lra.
  - repeat constructor; weigh; lra.
Defined.

(** ** Adding a layer *)

(** C5.  For a positive test weight and a positive diameter the layer that
    the form builds has
    [Height_m = mass * 1000 / (test_weight * PI * (diameter / 2) ^ 2)];
    and it is this layer that the form puts on top of the inventory it
    reads and writes back, when the store answers. *)
Theorem inventory_form_height
    (user_id selected_bin commodity current_time : string)
    (bin_diameter mass test_weight moisture_content : R) :
  test_weight > 0 →
  bin_diameter > 0 →
  let layer := new_grain_data current_time commodity mass test_weight
                              moisture_content bin_diameter in
  Height_m layer
  = mass * 1000 / (test_weight * PI * (bin_diameter / 2) ^ 2) ∧
  ∀ (df : DataFrame) (w : world),
    fault (firebase w) = None →
    let run := inventory_form user_id selected_bin bin_diameter commodity
                              mass test_weight moisture_content true
                              current_time (Some df) w in
    run.1 = Returned () ∧
    ledger run.2 user_id selected_bin = rows df ++ [layer] ∧
    page run.2 = page w ++ [success "Inventory updated successfully."].
Proof.
  intros Htw Hd. cbv zeta. split.
  - unfold new_grain_data. cbn [Height_m]. f_equal. ring.
  - intros df w Hs. unfold inventory_form.
    destruct (Rgt_dec test_weight 0); [|lra].
    unfold mbind, py_bind, bind, name_lookup, mret, py_ret, ret.
    rewrite update_inventory_data_serving by done.
    cbn [fst snd show firebase page saved].
    repeat split.
    unfold ledger. cbn [firebase store]. by rewrite lookup_insert_eq.
Qed.

Lemma inventory_form_height_witness :
  let layer := new_grain_data "2024-03-01 08:00" "Wheat" 100 750 14 10 in
  Height_m layer = 100 * 1000 / (750 * PI * (10 / 2) ^ 2) ∧
  ∀ (df : DataFrame) (w : world),
    fault (firebase w) = None →
    let run := inventory_form "User1" "Bin1" 10 "Wheat" 100 750 14 true
                              "2024-03-01 08:00" (Some df) w in
    run.1 = Returned () ∧
    ledger run.2 "User1" "Bin1" = rows df ++ [layer] ∧
    page run.2 = page w ++ [success "Inventory updated successfully."].
Proof.
  apply (inventory_form_height "User1" "Bin1" "Wheat" "2024-03-01 08:00"
                               10 100 750 14).
  - lra.
  - lra.
Defined.

(** C7.  When the form is submitted with a test weight that is not
    positive, the page shows the error of line 142 and the store is not
    written to: every ledger is as it was. *)
Theorem inventory_form_rejects_test_weight
    (user_id selected_bin commodity current_time : string)
    (bin_diameter mass test_weight moisture_content : R)
    (inventory_df : option DataFrame) (w : world) :
  test_weight <= 0 →
  inventory_form user_id selected_bin bin_diameter commodity mass
                 test_weight moisture_content true current_time
                 inventory_df w
  = (Returned (),
     mkWorld (firebase w)
             (page w ++ [error "Test weight must be greater than zero to calculate the height."])).
Proof.
  intros Htw. unfold inventory_form.
  destruct (Rgt_dec test_weight 0); [lra|reflexivity].
Qed.

Lemma inventory_form_rejects_test_weight_witness :
  inventory_form "User1" "Bin1" 10 "Wheat" 100 0 14 true "2024-03-01 08:00"
                 (Some (DataFrame_of [wheat])) (bin_of [wheat])
  = (Returned (),
     mkWorld (firebase (bin_of [wheat]))
             (page (bin_of [wheat]) ++ [error "Test weight must be greater than zero to calculate the height."])).
Proof.
  apply (inventory_form_rejects_test_weight
           "User1" "Bin1" "Wheat" "2024-03-01 08:00" 10 100 0 14
           (Some (DataFrame_of [wheat])) (bin_of [wheat])).
  lra.
Defined.

(** ** The capacity of the bin *)

(** C6, as stated, fails: the function has no check of its arguments.  For
    a diameter of -2 and a height of 1 it returns a volume. *)
Lemma calculate_bin_capacity_negative_diameter_returns :
  -2 <= 0 ∧
  calculate_bin_capacity (-2) 1 = Returned PI ∧
  ∀ e : exn, calculate_bin_capacity (-2) 1 ≠ Raised e.
Proof.
  split; [lra|]. split; [|done].
  unfold calculate_bin_capacity. f_equal. field.
Qed.

(** C6, amended.  For every diameter and height, positive or not, the
    capacity computation returns [PI * (diameter / 2)² * height]; it never
    raises. *)
Theorem calculate_bin_capacity_total (diameter height : R) :
  calculate_bin_capacity diameter height
  = Returned (PI * Rsqr (diameter / 2) * height).
Proof. unfold calculate_bin_capacity, Rsqr. f_equal. ring. Qed.

(** ** The moisture heat map *)

Lemma int_100 : int 100 = 100%Z.
Proof.
  unfold int. destruct (Rlt_dec 100 0); [lra|].
  symmetry. apply Int_part_spec. split; lra.
Qed.

Lemma slice_bound_0 (n : Z) : (0 ≤ n)%Z → slice_bound n 0 = 0%Z.
Proof. intros Hn. unfold slice_bound. cbn. lia. Qed.

Lemma slice_bound_end (n : Z) : (0 ≤ n)%Z → slice_bound n n = n.
Proof.
  intros Hn. unfold slice_bound.
  destruct (Z.ltb_spec n 0); lia.
Qed.

(** A slice over the whole axis sets every cell. *)
Lemma setitem_rows_whole (a : list (list R)) (v : R) :
  setitem_rows a 0 (Z.of_nat (length a)) v
  = fmap (M := list) (fun _ => v) <$> a.
Proof.
  unfold setitem_rows.
  rewrite slice_bound_0, slice_bound_end by lia.
  rewrite <- (imap_const (fmap (M := list) (fun _ => v)) a).
  apply imap_ext. intros j band Hj. apply lookup_lt_Some in Hj.
  rewrite decide_True; [done|lia].
Qed.

Lemma create_bin_visualization_no_row (diameter height : R)
    (inventory : DataFrame) :
  rows inventory = [] →
  create_bin_visualization diameter height inventory = Returned None.
Proof.
  intros Hrows. unfold create_bin_visualization, empty. by rewrite Hrows.
Qed.

(** C8.  For an inventory of one layer whose height is the height of the
    bin, every band of the heat map (all 100 rows of 100 cells) holds the
    moisture content of that layer; for an inventory without rows the
    function returns [None]. *)
Theorem create_bin_visualization_one_layer (diameter height : R)
    (layer : Row) :
  0 < height →
  Height_m layer = height →
  create_bin_visualization diameter height (DataFrame_of [layer])
  = Returned (Some (mkFigure
       (replicate 100 (replicate 100 (Moisture_Content_percent layer))))) ∧
  ∀ inventory : DataFrame,
    rows inventory = [] →
    create_bin_visualization diameter height inventory = Returned None.
Proof.
  intros Hpos Hh. split; [|apply create_bin_visualization_no_row].
  unfold create_bin_visualization.
  change (negb (empty (DataFrame_of [layer]))) with true. cbv iota.
  rewrite !getitem_DataFrame_of_cons.
  cbn [fmap list_fmap cell length seq foldl].
  unfold heatmap_step, cumsum. cbn [cumsum_from nth].
  rewrite Hh.
  replace ((0 + height) / height * 100) with 100 by (field; lra).
  rewrite int_100.
  change 100%Z with (Z.of_nat (length (zeros 100 100))) at 1.
  rewrite setitem_rows_whole. unfold zeros.
  by rewrite !fmap_replicate.
Qed.

Lemma create_bin_visualization_one_layer_witness :
  create_bin_visualization 10 20
    (DataFrame_of [mkRow "2024-03-01 08:00" "Wheat" 1178 750 14 20])
  = Returned (Some (mkFigure (replicate 100 (replicate 100 14)))) ∧
  ∀ inventory : DataFrame,
    rows inventory = [] →
    create_bin_visualization 10 20 inventory = Returned None.
Proof.
  apply (create_bin_visualization_one_layer
           10 20 (mkRow "2024-03-01 08:00" "Wheat" 1178 750 14 20)).
  - lra.
  - reflexivity.
Defined.

(** * Further properties of the script *)

(** ** The store *)

(** X1.  Write, then read: when the store answers, the frame fetched after
    [update_inventory_data] is the frame of the records just written, and
    its records are those records. *)
Theorem fetch_after_update (user_id bin_id : string) (data : list Row)
    (w : world) :
  fault (firebase w) = None →
  let w' := (update_inventory_data user_id bin_id data w).2 in
  fetch_inventory_data user_id bin_id w' = (Returned (DataFrame_of data), w') ∧
  to_dict_records (DataFrame_of data) = data.
Proof.
  intros Hs. cbv zeta.
  rewrite update_inventory_data_serving by done. cbn [snd].
  rewrite fetch_inventory_data_serving by done.
  by rewrite ledger_saved, to_dict_records_DataFrame_of.
Qed.

Lemma fetch_after_update_witness :
  let w' := (update_inventory_data "User1" "Bin1" [wheat; corn] bin_none).2 in
  fetch_inventory_data "User1" "Bin1" w'
  = (Returned (DataFrame_of [wheat; corn]), w') ∧
  to_dict_records (DataFrame_of [wheat; corn]) = [wheat; corn].
Proof.
  apply (fetch_after_update "User1" "Bin1" [wheat; corn] bin_none).
  reflexivity.
Defined.

(** Paths. *)

Lemma append_no_slash_inj (u u' r r' : string) :
  no_slash u → no_slash u' →
  u +:+ "/" +:+ r = u' +:+ "/" +:+ r' → u = u' ∧ r = r'.
Proof.
  revert u'. induction u as [|c u IH]; intros [|c' u'] Hu Hu' Heq;
    cbn in *.
  - by inversion Heq.
  - inversion Heq; subst. by destruct Hu' as [? _].
  - inversion Heq; subst. by destruct Hu as [? _].
  - inversion Heq; subst. destruct Hu as [_ Hu], Hu' as [_ Hu'].
    destruct (IH u' Hu Hu') as [-> ->]; done.
Qed.

Lemma length_append (s t : string) :
  String.length (s +:+ t) = (String.length s + String.length t)%nat.
Proof. induction s as [|c s IH]; simpl; [done|by f_equal]. Qed.

Lemma append_inj_r (s s' t : string) : s +:+ t = s' +:+ t → s = s'.
Proof.
  revert s'. induction s as [|c s IH]; intros [|c' s'] Heq.
  - done.
  - apply (f_equal String.length) in Heq.
    change (String.length ("" +:+ t)) with (String.length t) in Heq.
    change (String.length (String c' s' +:+ t))
      with (S (String.length (s' +:+ t))) in Heq.
    rewrite length_append in Heq. lia.
  - apply (f_equal String.length) in Heq.
    change (String.length ("" +:+ t)) with (String.length t) in Heq.
    change (String.length (String c s +:+ t))
      with (S (String.length (s +:+ t))) in Heq.
    rewrite length_append in Heq. lia.
  - change (String c (s +:+ t) = String c' (s' +:+ t)) in Heq.
    inversion Heq; subst. by rewrite (IH s').
Qed.

Lemma inventory_path_eq (user_id bin_id user_id' bin_id' : string) :
  no_slash user_id → no_slash user_id' →
  inventory_path user_id bin_id = inventory_path user_id' bin_id' →
  user_id = user_id' ∧ bin_id = bin_id'.
Proof.
  intros Hu Hu' Heq. unfold inventory_path in Heq.
  apply (inj (String.append "users/")) in Heq.
  apply append_no_slash_inj in Heq as [-> Heq]; [|done..].
  split; [done|]. by apply append_inj_r in Heq.
Qed.

(** X2.  Different bins have different paths: for user identifiers without
    "/", two (user, bin) pairs that differ are never stored under the same
    path. *)
Theorem inventory_path_inj (user_id bin_id user_id' bin_id' : string) :
  no_slash user_id → no_slash user_id' →
  (user_id, bin_id) ≠ (user_id', bin_id') →
  inventory_path user_id bin_id ≠ inventory_path user_id' bin_id'.
Proof.
  intros Hu Hu' Hne Heq. apply inventory_path_eq in Heq as [-> ->]; done.
Qed.

Lemma inventory_path_inj_witness :
  inventory_path "User1" "Bin1" ≠ inventory_path "User2" "Bin1".
Proof.
  apply (inventory_path_inj "User1" "Bin1" "User2" "Bin1").
  - cbn. repeat split; discriminate.
  - cbn. repeat split; discriminate.
  - discriminate.
Defined.

Lemma ledger_saved_other (w : world) (user_id bin_id user_id' bin_id' : string)
    (data : list Row) :
  inventory_path user_id' bin_id' ≠ inventory_path user_id bin_id →
  ledger (saved w user_id bin_id data) user_id' bin_id'
  = ledger w user_id' bin_id'.
Proof.
  intros Hne. unfold ledger, saved. cbn [firebase store].
  by rewrite lookup_insert_ne.
Qed.

(** ** Unloading, in every world *)

Lemma fetch_inventory_data_faulted (user_id bin_id t : string) (w : world) :
  fault (firebase w) = Some t →
  fetch_inventory_data user_id bin_id w
  = (Returned DataFrame_empty,
     mkWorld (firebase w) (page w ++ [error ("Failed to fetch data: " +:+ t)])).
Proof.
  intros Hf.
  unfold fetch_inventory_data, mbind, py_bind, bind, get, requests_get.
  by rewrite Hf.
Qed.

Lemma unload_grain_faulted_run (user_id bin_id t : string)
    (mass_to_unload bin_diameter : R) (w : world) :
  fault (firebase w) = Some t →
  unload_grain user_id bin_id mass_to_unload bin_diameter w
  = (Raised (KeyError "Mass_tonnes"),
     mkWorld (firebase w) (page w ++ [error ("Failed to fetch data: " +:+ t)])).
Proof.
  intros Hf. unfold unload_grain, mbind, py_bind, bind.
  by rewrite (fetch_inventory_data_faulted _ _ t).
Qed.

(** X3.  When the store does not answer, [unload_grain] shows the error of
    the fetch, goes on with the empty frame and raises [KeyError] at
    line 60; the store is not written to. *)
Theorem unload_grain_faulted (user_id bin_id t : string)
    (mass_to_unload bin_diameter : R) (w : world) :
  fault (firebase w) = Some t →
  unload_grain user_id bin_id mass_to_unload bin_diameter w
  = (Raised (KeyError "Mass_tonnes"),
     mkWorld (firebase w) (page w ++ [error ("Failed to fetch data: " +:+ t)])).
Proof. apply unload_grain_faulted_run. Qed.

Lemma unload_grain_faulted_witness :
  unload_grain "User1" "Bin1" 5 10
               (mkWorld (mkRemote (Some "503") {[ inventory_path "User1" "Bin1" := [wheat] ]}) [])
  = (Raised (KeyError "Mass_tonnes"),
     mkWorld (mkRemote (Some "503") {[ inventory_path "User1" "Bin1" := [wheat] ]})
             ([] ++ [error ("Failed to fetch data: " +:+ "503")])).
Proof.
  apply (unload_grain_faulted "User1" "Bin1" "503" 5 10
           (mkWorld (mkRemote (Some "503") {[ inventory_path "User1" "Bin1" := [wheat] ]}) [])).
  reflexivity.
Defined.

(** Whatever the world, [unload_grain] either leaves the store as it is or
    replaces the document of its bin by the rows of the loop. *)
Lemma unload_grain_cases (user_id bin_id : string) (m d : R) (w : world) :
  let w' := (unload_grain user_id bin_id m d w).2 in
  firebase w' = firebase w ∨
  (fault (firebase w) = None ∧ ledger w user_id bin_id ≠ [] ∧
   m <= total_mass (ledger w user_id bin_id) ∧
   unload_grain user_id bin_id m d w
   = (Returned (),
      saved w user_id bin_id (unload_loop d (ledger w user_id bin_id) m []))).
Proof.
  cbv zeta. destruct (fault (firebase w)) as [t|] eqn:Hf.
  { left. by rewrite (unload_grain_faulted_run _ _ t). }
  destruct (ledger w user_id bin_id) as [|r l] eqn:Hl.
  { left. by rewrite unload_grain_no_layer. }
  rewrite unload_grain_layers, Hl by (done || by rewrite Hl).
  destruct (Rgt_dec m (total_mass (r :: l))); [by left|].
  right. repeat split; [done|lra].
Qed.

Lemma ledger_firebase (w w' : world) (user_id bin_id : string) :
  firebase w' = firebase w → ledger w' user_id bin_id = ledger w user_id bin_id.
Proof. unfold ledger. by intros ->. Qed.

(** X4.  [unload_grain] touches no other bin: for identifiers without "/",
    the ledger of every other (user, bin) pair is after the call what it
    was before, in every world and for every request. *)
Theorem unload_grain_other_bins (user_id bin_id user_id' bin_id' : string)
    (m d : R) (w : world) :
  no_slash user_id → no_slash user_id' →
  (user_id', bin_id') ≠ (user_id, bin_id) →
  ledger (unload_grain user_id bin_id m d w).2 user_id' bin_id'
  = ledger w user_id' bin_id'.
Proof.
  intros Hu Hu' Hne.
  destruct (unload_grain_cases user_id bin_id m d w) as [Hsame|(_&_&_&->)].
  - by apply ledger_firebase.
  - cbn [snd]. apply ledger_saved_other. intros Heq.
    apply inventory_path_eq in Heq as [-> ->]; done.
Qed.

Lemma unload_grain_other_bins_witness :
  ledger (unload_grain "User1" "Bin1" 120 10 (bin_of [wheat; corn; oats])).2
         "User2" "Bin1"
  = ledger (bin_of [wheat; corn; oats]) "User2" "Bin1".
Proof.
  apply (unload_grain_other_bins "User1" "Bin1" "User2" "Bin1" 120 10
                                 (bin_of [wheat; corn; oats])).
  - cbn. repeat split; discriminate.
  - cbn. repeat split; discriminate.
  - discriminate.
Defined.

(** ** What the loop writes back *)

Lemma unload_loop_shape (d : R) (l : list Row) (m : R) :
  (∃ pre : list Row, l = pre ++ unload_loop d l m []) ∨
  (∃ (pre : list Row) (row : Row) (post : list Row) (rem : R),
      l = pre ++ row :: post ∧ 0 < rem < Mass_tonnes row ∧
      unload_loop d l m [] = [new_row row rem d]).
Proof.
  revert m. induction l as [|row rest IH]; intros m.
  { left. by exists []. }
  cbn [unload_loop].
  destruct (Rle_dec m 0).
  { left. exists []. by rewrite unload_loop_paid by done. }
  destruct (Rge_dec m (Mass_tonnes row)).
  - destruct (IH (m - Mass_tonnes row))
      as [[pre Hpre]|(pre & row' & post & rem & Hl & Hrem & Hcut)].
    + left. exists (row :: pre). cbn [app]. by f_equal.
    + right. exists (row :: pre), row', post, rem.
      split; [cbn [app]; by f_equal|done].
  - right. exists [], row, rest, m. repeat split; lra.
Qed.

(** X5.  The rows the loop keeps are either a tail of the rows it was given
    (the layers from some height upwards, untouched) or one single row, cut
    from a row of the input. *)
Theorem unload_loop_tail_or_cut (d : R) (l : list Row) (m : R) :
  (∃ pre : list Row, l = pre ++ unload_loop d l m []) ∨
  (∃ (pre : list Row) (row : Row) (post : list Row) (rem : R),
      l = pre ++ row :: post ∧ 0 < rem < Mass_tonnes row ∧
      unload_loop d l m [] = [new_row row rem d]).
Proof. apply unload_loop_shape. Qed.

Lemma unload_loop_Forall (P : Row → Prop) (d : R) (l : list Row) (m : R) :
  (∀ row rem, P row → 0 < rem < Mass_tonnes row → P (new_row row rem d)) →
  Forall P l → Forall P (unload_loop d l m []).
Proof.
  intros Hcut Hl.
  destruct (unload_loop_shape d l m)
    as [[pre Hpre]|(pre & row & post & rem & Hrows & Hrem & ->)].
  - rewrite Hpre in Hl. by apply Forall_app in Hl as [_ ?].
  - rewrite Hrows in Hl. apply Forall_app in Hl as [_ Hl].
    apply Forall_cons in Hl as [Hrow _]. constructor; [|constructor].
    by apply Hcut.
Qed.

Lemma unload_grain_Forall (P : Row → Prop) (user_id bin_id : string)
    (m d : R) (w : world) :
  (∀ row rem, P row → 0 < rem < Mass_tonnes row → P (new_row row rem d)) →
  Forall P (ledger w user_id bin_id) →
  Forall P (ledger (unload_grain user_id bin_id m d w).2 user_id bin_id).
Proof.
  intros Hcut Hl.
  destruct (unload_grain_cases user_id bin_id m d w) as [Hsame|(_&_&_&->)].
  - by rewrite (ledger_firebase w).
  - cbn [snd]. rewrite ledger_saved. by apply unload_loop_Forall.
Qed.

(** X6.  [unload_grain] keeps the invariants of the layers: if every layer
    of the bin has a mass that is not negative and a positive test weight,
    so has every layer after the call, whatever the request, the diameter
    and the state of the store.  (A cut layer keeps a positive mass.) *)
Theorem unload_grain_keeps_layer_ok (user_id bin_id : string) (m d : R)
    (w : world) :
  Forall layer_ok (ledger w user_id bin_id) →
  Forall layer_ok (ledger (unload_grain user_id bin_id m d w).2
                          user_id bin_id).
Proof.
  apply unload_grain_Forall.
  intros row rem [Hm Htw] Hrem. split; cbn; [lra|done].
Qed.

Lemma layer_ok_sample : Forall layer_ok [wheat; corn; oats].
Proof. repeat constructor; cbn; lra. Qed.

Lemma unload_grain_keeps_layer_ok_witness :
  Forall layer_ok
         (ledger (unload_grain "User1" "Bin1" 120 10
                               (bin_of [wheat; corn; oats])).2
                 "User1" "Bin1").
Proof.
  apply (unload_grain_keeps_layer_ok "User1" "Bin1" 120 10
                                     (bin_of [wheat; corn; oats])).
  rewrite ledger_bin_of. exact layer_ok_sample.
Defined.

(** X7.  [unload_grain] keeps the heights in step with the masses: if the
    height of every layer fits its mass and test weight in a bin of
    diameter [d], the same holds after an unload made with that
    diameter. *)
Theorem unload_grain_keeps_height_fits (user_id bin_id : string) (m d : R)
    (w : world) :
  Forall (height_fits d) (ledger w user_id bin_id) →
  Forall (height_fits d) (ledger (unload_grain user_id bin_id m d w).2
                                 user_id bin_id).
Proof.
  apply unload_grain_Forall. intros row rem _ _. reflexivity.
Qed.

Lemma new_grain_data_height_fits (t c : string) (mass tw mc d : R) :
  height_fits d (new_grain_data t c mass tw mc d).
Proof.
  unfold height_fits, new_grain_data.
  cbn [Height_m Mass_tonnes Test_Weight_kg_m3]. f_equal. ring.
Qed.

Lemma unload_grain_keeps_height_fits_witness :
  Forall (height_fits 10)
         (ledger (unload_grain "User1" "Bin1" 120 10
                               (bin_of [wheat; corn; oats])).2
                 "User1" "Bin1").
Proof.
  apply (unload_grain_keeps_height_fits "User1" "Bin1" 120 10
                                        (bin_of [wheat; corn; oats])).
  rewrite ledger_bin_of.
  repeat constructor; apply new_grain_data_height_fits.
Defined.

(** ** First in, first out *)





(** X9.  The balance of an unload.  For layers of masses that are not
    negative and a request between 0 and the total, the ledger written
    back weighs the old total, minus the request, minus the layers that lay
    above a cut layer; so never more than the old total minus the request,
    and exactly that when no layer lay above a cut. *)
Theorem unload_grain_balance (user_id bin_id : string) (m d : R) (w : world) :
  fault (firebase w) = None →
  ledger w user_id bin_id ≠ [] →
  Forall (fun r => 0 <= Mass_tonnes r) (ledger w user_id bin_id) →
  0 <= m <= total_mass (ledger w user_id bin_id) →
  let lost := unvisited (ledger w user_id bin_id) m in
  let after := ledger (unload_grain user_id bin_id m d w).2 user_id bin_id in
  total_mass after = total_mass (ledger w user_id bin_id) - m - total_mass lost ∧
  total_mass after <= total_mass (ledger w user_id bin_id) - m ∧
  (lost = [] → total_mass after = total_mass (ledger w user_id bin_id) - m).
Proof.
  intros Hs Hne Hpos Hm. cbv zeta.
  rewrite unload_grain_layers by done.
  destruct (Rgt_dec m (total_mass (ledger w user_id bin_id))); [lra|].
  cbn [snd]. rewrite ledger_saved, unload_loop_balance by done.
  assert (0 <= total_mass (unvisited (ledger w user_id bin_id) m)) as Hlost.
  { apply total_mass_nonneg. clear Hm n Hne.
    revert m. induction Hpos as [|row rest Hrow Hrest IH]; intros m;
      cbn [unvisited]; [constructor|].
    destruct (Rle_dec m 0); [apply IH|].
    destruct (Rge_dec m (Mass_tonnes row)); [apply IH|done]. }
  repeat split; [lra|]. intros ->. change (total_mass []) with 0. lra.
Qed.

Lemma unload_grain_balance_witness :
  let lost := unvisited (ledger (bin_of [wheat; corn; oats]) "User1" "Bin1") 120 in
  let after := ledger (unload_grain "User1" "Bin1" 120 10
                                    (bin_of [wheat; corn; oats])).2
                      "User1" "Bin1" in
  total_mass after
  = total_mass (ledger (bin_of [wheat; corn; oats]) "User1" "Bin1") - 120
    - total_mass lost ∧
  total_mass after
  <= total_mass (ledger (bin_of [wheat; corn; oats]) "User1" "Bin1") - 120 ∧
  (lost = [] →
   total_mass after
   = total_mass (ledger (bin_of [wheat; corn; oats]) "User1" "Bin1") - 120).
Proof.
  apply (unload_grain_balance "User1" "Bin1" 120 10
                              (bin_of [wheat; corn; oats])).
  - reflexivity.
  - rewrite ledger_bin_of. discriminate.
  - rewrite ledger_bin_of. repeat constructor; cbn; lra.
  - rewrite ledger_bin_of. weigh. lra.
Defined.



(** ** The form, further *)









(** ** Capacity and layers *)

(** X14.  The height of a new layer and the capacity formula agree: the
    volume of a bin section as high as the layer is the volume of the
    grain, its mass in kilograms over its test weight. *)
Theorem calculate_bin_capacity_of_layer (t c : string)
    (mass tw mc d : R) :
  tw > 0 → d > 0 →
  calculate_bin_capacity d (Height_m (new_grain_data t c mass tw mc d))
  = Returned (mass * 1000 / tw).
Proof.
  intros Htw Hd. unfold calculate_bin_capacity, new_grain_data.
  cbn [Height_m]. f_equal. field.
  repeat split; [lra|lra|apply PI_neq0].
Qed.

Lemma calculate_bin_capacity_of_layer_witness :
  calculate_bin_capacity 10
    (Height_m (new_grain_data "2024-03-01 08:00" "Wheat" 100 750 14 10))
  = Returned (100 * 1000 / 750).
Proof.
  apply (calculate_bin_capacity_of_layer "2024-03-01 08:00" "Wheat"
                                         100 750 14 10); lra.
Defined.

(** ** The heat map, further *)

Lemma setitem_rows_length (a : list (list R)) (start stop : Z) (v : R) :
  length (setitem_rows a start stop v) = length a.
Proof. unfold setitem_rows. apply length_imap. Qed.

(** A slice assignment keeps a property of the bands that holds of the
    bands of the array and of a band wholly set to the value. *)
Lemma setitem_rows_Forall (P : list R → Prop) (a : list (list R))
    (start stop : Z) (v : R) :
  (∀ band, P band → P ((fun _ => v) <$> band)) →
  Forall P a → Forall P (setitem_rows a start stop v).
Proof.
  intros Hset Ha. unfold setitem_rows.
  apply Forall_lookup_2. intros j band Hj.
  rewrite list_lookup_imap in Hj.
  destruct (a !! j) as [band0|] eqn:Hband; [|done].
  cbn in Hj. injection Hj as <-.
  pose proof (Forall_lookup_1 _ _ _ _ Ha Hband) as Hb.
  destruct (decide _); [by apply Hset|done].
Qed.

Lemma heatmap_foldl_invariant (I : list (list R) → Prop) (height : R)
    (grain_heights moisture_values : list R) (idx : list nat) :
  (∀ a i, I a → I (heatmap_step height grain_heights moisture_values a i)) →
  ∀ a, I a →
       I (foldl (heatmap_step height grain_heights moisture_values) a idx).
Proof.
  intros Hstep. induction idx as [|i idx IH]; intros a Ha; cbn [foldl].
  - done.
  - apply IH. by apply Hstep.
Qed.

Lemma create_bin_visualization_drawn (diameter height : R)
    (r : Row) (data : list Row) :
  ∃ fig : Figure,
    create_bin_visualization diameter height (DataFrame_of (r :: data))
    = Returned (Some fig) ∧
    length (surfacecolor fig) = 100%nat ∧
    Forall (fun band => length band = 100%nat) (surfacecolor fig) ∧
    Forall (Forall (fun x => x = 0 ∨
                             x ∈ Moisture_Content_percent <$> r :: data))
           (surfacecolor fig).
Proof.
  unfold create_bin_visualization.
  change (negb (empty (DataFrame_of (r :: data)))) with true. cbv iota.
  rewrite !getitem_DataFrame_of_cons. eexists. split; [reflexivity|].
  cbn [surfacecolor].
  set (mv := cell col_Moisture_Content_percent <$> r :: data).
  set (gh := cumsum _).
  change (Moisture_Content_percent <$> r :: data) with mv.
  repeat split.
  - apply (heatmap_foldl_invariant (fun a => length a = 100%nat)).
    + intros a i Ha. unfold heatmap_step. by rewrite setitem_rows_length.
    + unfold zeros. apply length_replicate.
  - apply (heatmap_foldl_invariant
             (Forall (fun band => length band = 100%nat))).
    + intros a i Ha. unfold heatmap_step. apply setitem_rows_Forall; [|done].
      intros band Hb. by rewrite length_fmap.
    + unfold zeros. apply Forall_replicate, length_replicate.
  - apply (heatmap_foldl_invariant
             (Forall (Forall (fun x => x = 0 ∨ x ∈ mv)))).
    + intros a i Ha. unfold heatmap_step. apply setitem_rows_Forall; [|done].
      intros band _. apply Forall_fmap, Forall_forall. intros x _. unfold compose.
      rewrite nth_lookup. destruct (mv !! i) as [v|] eqn:Hv; cbn.
      * right. by eapply list_elem_of_lookup_2.
      * by left.
    + unfold zeros. apply Forall_replicate, Forall_replicate. by left.
Qed.






(** ** A run of the page *)

(** The end of a run (lines 149-161) in a world whose store answers: what
    is shown for the ledger of the selected bin. *)
Lemma script_shows (ui : Widgets.t) (current_time : string) (w : world) :
  Widgets.submit_button ui = false →
  Widgets.unload_button ui = false →
  fault (firebase w) = None →
  script ui current_time w
  = match ledger w (Widgets.user_id ui) (Widgets.selected_bin ui) with
    | [] =>
        (Returned (mkDisplay None None),
         mkWorld (firebase w)
                 (page w ++ [error "No inventory data available for the selected bin."]))
    | r :: data =>
        match create_bin_visualization (Widgets.bin_diameter ui)
                (Widgets.bin_height ui) (DataFrame_of (r :: data)) with
        | Returned fig =>
            (Returned (mkDisplay (Some (DataFrame_of (r :: data))) fig), w)
        | Raised e => (Raised e, w)
        end
    end.
Proof.
  intros Hsub Hunl Hs. unfold script, inventory_form. rewrite Hsub, Hunl.
  unfold mbind, py_bind, bind, mret, py_ret, ret.
  rewrite fetch_inventory_data_serving by done.
  destruct (ledger w (Widgets.user_id ui) (Widgets.selected_bin ui))
    as [|r data]; [done|].
  change (empty (DataFrame_of (r :: data))) with false. cbv iota.
  unfold lift. by destruct (create_bin_visualization _ _ _).
Qed.

Lemma script_shows_layers (ui : Widgets.t) (current_time : string)
    (w : world) :
  Widgets.submit_button ui = false →
  Widgets.unload_button ui = false →
  fault (firebase w) = None →
  ledger w (Widgets.user_id ui) (Widgets.selected_bin ui) ≠ [] →
  ∃ fig : Figure,
    script ui current_time w
    = (Returned
         (mkDisplay
            (Some (DataFrame_of
                     (ledger w (Widgets.user_id ui) (Widgets.selected_bin ui))))
            (Some fig)), w) ∧
    length (surfacecolor fig) = 100%nat.
Proof.
  intros Hsub Hunl Hs Hne. rewrite script_shows by done.
  destruct (ledger w (Widgets.user_id ui) (Widgets.selected_bin ui))
    as [|r data]; [done|].
  destruct (create_bin_visualization_drawn
              (Widgets.bin_diameter ui) (Widgets.bin_height ui) r data)
    as (fig & -> & Hlen & _).
  by exists fig.
Qed.

(** X17.  Looking at a bin with layers changes nothing: without a button
    pressed and with a store that answers, a run shows the table of the
    layers of the selected bin and a chart of 100 bands, adds no message
    and leaves the store as it is. *)
Theorem script_view_layers (ui : Widgets.t) (current_time : string)
    (w : world) :
  Widgets.submit_button ui = false →
  Widgets.unload_button ui = false →
  fault (firebase w) = None →
  ledger w (Widgets.user_id ui) (Widgets.selected_bin ui) ≠ [] →
  ∃ fig : Figure,
    script ui current_time w
    = (Returned
         (mkDisplay
            (Some (DataFrame_of
                     (ledger w (Widgets.user_id ui) (Widgets.selected_bin ui))))
            (Some fig)), w) ∧
    length (surfacecolor fig) = 100%nat.
Proof. apply script_shows_layers. Qed.

Lemma script_view_layers_witness :
  ∃ fig : Figure,
    script (sample_widgets 0 false 750 false) "2024-03-05 12:00"
           (bin_of [wheat; corn])
    = (Returned
         (mkDisplay
            (Some (DataFrame_of (ledger (bin_of [wheat; corn]) "User1" "Bin1")))
            (Some fig)), bin_of [wheat; corn]) ∧
    length (surfacecolor fig) = 100%nat.
Proof.
  apply (script_view_layers (sample_widgets 0 false 750 false)
                            "2024-03-05 12:00" (bin_of [wheat; corn])).
  - reflexivity.
  - reflexivity.
  - reflexivity.
  - cbn [sample_widgets Widgets.user_id Widgets.selected_bin].
    rewrite ledger_bin_of. discriminate.
Defined.

Lemma script_shows_empty_bin (ui : Widgets.t) (current_time : string)
    (w : world) :
  Widgets.submit_button ui = false →
  Widgets.unload_button ui = false →
  fault (firebase w) = None →
  ledger w (Widgets.user_id ui) (Widgets.selected_bin ui) = [] →
  script ui current_time w
  = (Returned (mkDisplay None None),
     mkWorld (firebase w)
             (page w ++ [error "No inventory data available for the selected bin."])).
Proof.
  intros Hsub Hunl Hs Hl. rewrite script_shows by done. by rewrite Hl.
Qed.

(** X18.  Looking at an empty bin: without a button pressed and with a
    store that answers, a run on a bin without layers shows "No inventory
    data available for the selected bin." and neither table nor chart; the
    store is left as it is. *)
Theorem script_view_empty_bin (ui : Widgets.t) (current_time : string)
    (w : world) :
  Widgets.submit_button ui = false →
  Widgets.unload_button ui = false →
  fault (firebase w) = None →
  ledger w (Widgets.user_id ui) (Widgets.selected_bin ui) = [] →
  script ui current_time w
  = (Returned (mkDisplay None None),
     mkWorld (firebase w)
             (page w ++ [error "No inventory data available for the selected bin."])).
Proof. apply script_shows_empty_bin. Qed.

Lemma script_view_empty_bin_witness :
  script (sample_widgets 0 false 750 false) "2024-03-05 12:00" bin_none
  = (Returned (mkDisplay None None),
     mkWorld (firebase bin_none)
             (page bin_none ++ [error "No inventory data available for the selected bin."])).
Proof.
  apply (script_view_empty_bin (sample_widgets 0 false 750 false)
                               "2024-03-05 12:00" bin_none);
    reflexivity.
Defined.

(** X19.  A store that does not answer looks like an empty bin: a run
    without a button pressed shows the error of the fetch and then the same
    "No inventory data available for the selected bin.", with neither table
    nor chart, whatever the store holds for the bin. *)
Theorem script_view_faulted (ui : Widgets.t) (current_time t : string)
    (w : world) :
  Widgets.submit_button ui = false →
  Widgets.unload_button ui = false →
  fault (firebase w) = Some t →
  script ui current_time w
  = (Returned (mkDisplay None None),
     mkWorld (firebase w)
             (page w ++ [error ("Failed to fetch data: " +:+ t);
                         error "No inventory data available for the selected bin."])).
Proof.
  intros Hsub Hunl Hf. unfold script, inventory_form. rewrite Hsub, Hunl.
  unfold mbind, py_bind, bind, mret, py_ret, ret.
  rewrite (fetch_inventory_data_faulted _ _ t) by done.
  change (empty DataFrame_empty) with true. cbv iota.
  unfold show. cbn [firebase page]. by rewrite <- app_assoc.
Qed.

Lemma script_view_faulted_witness :
  script (sample_widgets 0 false 750 false) "2024-03-05 12:00"
         (mkWorld (mkRemote (Some "503") {[ inventory_path "User1" "Bin1" := [wheat] ]}) [])
  = (Returned (mkDisplay None None),
     mkWorld (mkRemote (Some "503") {[ inventory_path "User1" "Bin1" := [wheat] ]})
             ([] ++ [error ("Failed to fetch data: " +:+ "503");
                     error "No inventory data available for the selected bin."])).
Proof.
  apply (script_view_faulted (sample_widgets 0 false 750 false)
           "2024-03-05 12:00" "503"
           (mkWorld (mkRemote (Some "503") {[ inventory_path "User1" "Bin1" := [wheat] ]}) []));
    reflexivity.
Defined.

(** X20.  A run in which the form is submitted with a positive test weight
    stops at line 134 with [NameError]: the name [inventory_df] is read
    before the run has bound it.  Nothing is written, nothing is shown, and
    an unload asked for in the same run is not made. *)
Theorem script_submit_raises (ui : Widgets.t) (current_time : string)
    (w : world) :
  Widgets.submit_button ui = true →
  Widgets.test_weight ui > 0 →
  script ui current_time w = (Raised (NameError "inventory_df"), w).
Proof.
  intros Hsub Htw. unfold script, inventory_form. rewrite Hsub.
  destruct (Rgt_dec (Widgets.test_weight ui) 0); [|lra].
  reflexivity.
Qed.

Lemma script_submit_raises_witness :
  script (sample_widgets 0 false 750 true) "2024-03-05 12:00"
         (bin_of [wheat; corn])
  = (Raised (NameError "inventory_df"), bin_of [wheat; corn]).
Proof.
  apply (script_submit_raises (sample_widgets 0 false 750 true)
                              "2024-03-05 12:00" (bin_of [wheat; corn])).
  - reflexivity.
  - cbn. lra.
Defined.

(** A run with the unload button pressed goes on, once [unload_grain] has
    returned, like a run without it in the world that the unload left. *)
Lemma script_after_unload (ui : Widgets.t) (current_time : string)
    (w w' : world) :
  Widgets.submit_button ui = false →
  Widgets.unload_button ui = true →
  unload_grain (Widgets.user_id ui) (Widgets.selected_bin ui)
               (Widgets.unload_mass ui) (Widgets.bin_diameter ui) w
  = (Returned (), w') →
  script ui current_time w = script (released ui) current_time w'.
Proof.
  intros Hsub Hunl Hrun. unfold script, inventory_form.
  cbn [released Widgets.submit_button Widgets.unload_button
       Widgets.user_id Widgets.selected_bin Widgets.bin_diameter
       Widgets.bin_height].
  rewrite Hsub, Hunl. unfold mbind, py_bind, bind, mret, py_ret, ret.
  by rewrite Hrun.
Qed.

(** X21.  A run with the unload button pressed shows what it has written:
    when the request does not exceed the total and leaves rows in the bin,
    the table is the frame of the rows that the unload wrote back, with a
    chart, and no message is added. *)
Theorem script_unload_shows_written (ui : Widgets.t) (current_time : string)
    (w : world) :
  Widgets.submit_button ui = false →
  Widgets.unload_button ui = true →
  fault (firebase w) = None →
  let user_id := Widgets.user_id ui in
  let bin_id := Widgets.selected_bin ui in
  let written :=
    unload_loop (Widgets.bin_diameter ui) (ledger w user_id bin_id)
                (Widgets.unload_mass ui) [] in
  ledger w user_id bin_id ≠ [] →
  Widgets.unload_mass ui <= total_mass (ledger w user_id bin_id) →
  written ≠ [] →
  ∃ fig : Figure,
    script ui current_time w
    = (Returned (mkDisplay (Some (DataFrame_of written)) (Some fig)),
       saved w user_id bin_id written).
Proof.
  intros Hsub Hunl Hs user_id bin_id written Hne Hm Hw.
  assert (unload_grain user_id bin_id (Widgets.unload_mass ui)
                       (Widgets.bin_diameter ui) w
          = (Returned (), saved w user_id bin_id written)) as Hrun.
  { rewrite unload_grain_layers by done.
    by destruct (Rgt_dec _ _); [lra|]. }
  rewrite (script_after_unload _ _ _ _ Hsub Hunl Hrun).
  destruct (script_shows_layers (released ui) current_time
              (saved w user_id bin_id written)) as (fig & Hview & _);
    try done.
  { cbn [released Widgets.user_id Widgets.selected_bin].
    fold user_id bin_id. by rewrite ledger_saved. }
  exists fig. rewrite Hview.
  cbn [released Widgets.user_id Widgets.selected_bin].
  fold user_id bin_id. by rewrite ledger_saved.
Qed.

Lemma script_unload_shows_written_witness :
  let ui := sample_widgets 120 true 750 false in
  let w := bin_of [wheat; corn; oats] in
  let written :=
    unload_loop (Widgets.bin_diameter ui)
                (ledger w (Widgets.user_id ui) (Widgets.selected_bin ui))
                (Widgets.unload_mass ui) [] in
  ∃ fig : Figure,
    script ui "2024-03-05 12:00" w
    = (Returned (mkDisplay (Some (DataFrame_of written)) (Some fig)),
       saved w (Widgets.user_id ui) (Widgets.selected_bin ui) written).
Proof.
  cbv zeta.
  apply (script_unload_shows_written (sample_widgets 120 true 750 false)
           "2024-03-05 12:00" (bin_of [wheat; corn; oats])).
  - reflexivity.
  - reflexivity.
  - reflexivity.
  - cbn [sample_widgets Widgets.user_id Widgets.selected_bin].
    rewrite ledger_bin_of. discriminate.
  - cbn [sample_widgets Widgets.user_id Widgets.selected_bin
         Widgets.unload_mass].
    rewrite ledger_bin_of. weigh. lra.
  - cbn [sample_widgets Widgets.user_id Widgets.selected_bin
         Widgets.unload_mass Widgets.bin_diameter].
    rewrite ledger_bin_of.
    rewrite (unload_loop_consumed 10 [wheat] [corn; oats])
      by (weigh; lra).
    rewrite unload_loop_break by (weigh; lra). discriminate.
Defined.



(** ** Unloading, summed up by case *)

(** X23.  A request that ends strictly inside a layer: the layers below it
    are consumed, the layer is cut, and the ledger written back holds the
    cut layer and nothing else, however many layers lay above it. *)
Theorem unload_grain_cut_writes_one_row (user_id bin_id : string) (w : world)
    (m d : R) (pre : list Row) (row : Row) (post : list Row) :
  fault (firebase w) = None →
  ledger w user_id bin_id = pre ++ row :: post →
  consumed_whole m pre →
  0 < m - total_mass pre < Mass_tonnes row →
  m <= total_mass (ledger w user_id bin_id) →
  let after := (unload_grain user_id bin_id m d w).2 in
  ledger after user_id bin_id = [new_row row (m - total_mass pre) d] ∧
  length (ledger after user_id bin_id) = 1%nat ∧
  page after = page w.
Proof.
  intros Hs Hl Hpre Hcut Hm. cbv zeta.
  rewrite (unload_grain_cut _ _ _ _ _ pre row post) by done.
  cbn [snd]. by rewrite ledger_saved.
Qed.

Lemma unload_grain_cut_writes_one_row_witness :
  let after := (unload_grain "User1" "Bin1" 120 10
                             (bin_of [wheat; corn; oats])).2 in
  ledger after "User1" "Bin1" = [new_row corn (120 - total_mass [wheat]) 10] ∧
  length (ledger after "User1" "Bin1") = 1%nat ∧
  page after = page (bin_of [wheat; corn; oats]).
Proof.
  apply (unload_grain_cut_writes_one_row
           "User1" "Bin1" (bin_of [wheat; corn; oats]) 120 10
           [wheat] corn [oats]).
  - reflexivity.
  - apply ledger_bin_of.
  - weigh. lra.
  - weigh. lra.
  - rewrite ledger_bin_of. weigh. lra.
Defined.

(** X24.  A request above the total of a bin with layers is refused: the
    call returns, the page gets one warning that carries the shortfall
    (request minus total), and the ledger is what it was. *)
Theorem unload_grain_short_warns (user_id bin_id : string) (w : world)
    (m d : R) :
  fault (firebase w) = None →
  ledger w user_id bin_id ≠ [] →
  m > total_mass (ledger w user_id bin_id) →
  let run := unload_grain user_id bin_id m d w in
  run.1 = Returned () ∧
  firebase run.2 = firebase w ∧
  page run.2
  = page w ++ [warning_short_by (m - total_mass (ledger w user_id bin_id))].
Proof.
  intros Hs Hl Hm. cbv zeta. rewrite unload_grain_layers by done.
  by destruct (Rgt_dec m (total_mass (ledger w user_id bin_id))).
Qed.

Lemma unload_grain_short_warns_witness :
  let run := unload_grain "User1" "Bin1" 200 10 (bin_of [wheat; corn; oats]) in
  run.1 = Returned () ∧
  firebase run.2 = firebase (bin_of [wheat; corn; oats]) ∧
  page run.2
  = page (bin_of [wheat; corn; oats])
    ++ [warning_short_by
          (200 - total_mass (ledger (bin_of [wheat; corn; oats]) "User1" "Bin1"))].
Proof.
  apply (unload_grain_short_warns "User1" "Bin1"
                                  (bin_of [wheat; corn; oats]) 200 10).
  - reflexivity.
  - rewrite ledger_bin_of. discriminate.
  - rewrite ledger_bin_of. weigh. lra.
Defined.

(** X25.  Unloading nothing from a bin with layers (masses not negative)
    is harmless: the call returns, shows nothing, and the ledger is the
    same list of layers as before. *)
Theorem unload_grain_zero_keeps_ledger (user_id bin_id : string) (w : world)
    (d : R) :
  fault (firebase w) = None →
  ledger w user_id bin_id ≠ [] →
  Forall (fun r => 0 <= Mass_tonnes r) (ledger w user_id bin_id) →
  let run := unload_grain user_id bin_id 0 d w in
  run.1 = Returned () ∧
  ledger run.2 user_id bin_id = ledger w user_id bin_id ∧
  page run.2 = page w.
Proof.
  intros Hs Hl Hpos. cbv zeta. rewrite unload_grain_layers by done.
  apply total_mass_nonneg in Hpos.
  destruct (Rgt_dec 0 (total_mass (ledger w user_id bin_id))); [lra|].
  cbn [fst snd]. rewrite unload_loop_paid by lra.
  by rewrite ledger_saved.
Qed.

Lemma unload_grain_zero_keeps_ledger_witness :
  let run := unload_grain "User1" "Bin1" 0 10 (bin_of [chaff; corn]) in
  run.1 = Returned () ∧
  ledger run.2 "User1" "Bin1" = ledger (bin_of [chaff; corn]) "User1" "Bin1" ∧
  page run.2 = page (bin_of [chaff; corn]).
Proof.
  apply (unload_grain_zero_keeps_ledger "User1" "Bin1"
                                        (bin_of [chaff; corn]) 10).
  - reflexivity.
  - rewrite ledger_bin_of. discriminate.
  - rewrite ledger_bin_of.
    apply Forall_cons. split; [cbn; lra|].
    apply Forall_singleton. cbn. lra.
Defined.
